(** * InsureAI estimate: a shallow embedding of [app/main.py]

    The program is a single Streamlit script.  At import time it unpickles
    two artifacts (a regressor and a feature scaler); on every form
    submission it encodes six form fields into a nine-element row, asks the
    regressor for a premium and renders a banner, a KPI and a gauge.

    Python values are modelled as the script uses them:
    - a Python [float] / [numpy.float64] is an IEEE binary64 number, here a
      primitive [float] with its own comparison [<?];
    - a Python [int] is a [Z];
    - a [dict] with string keys is a [gmap string _];
    - a two-dimensional [numpy] array is a list of rows;
    - an exception is a value of [exn] carried by [result];
    - the calls made on the artifacts and on Streamlit are recorded, in
      program order, in a trace of [event]s. *)

From Stdlib Require Import Floats ZArith Lia.
From stdpp Require Import gmap strings list.

Local Open Scope Z_scope.

(** ** Python runtime values *)

Module Py.

(** The exceptions the script can meet.  [OtherException] stands for any
    other subclass of [Exception] (an unpickling error, an [OSError], ...);
    everything here is caught by [except Exception]. *)
Inductive exn : Type :=
| KeyError (key : string)
| IndexError
| FileNotFoundError (path : string)
| AttributeError (attr : string)
| TypeError (msg : string)
| OtherException (name : string).

Inductive result (A : Type) : Type :=
| Ok (a : A)
| Raise (e : exn).
Global Arguments Ok {A} a.
Global Arguments Raise {A} e.

Global Instance result_ret : MRet result := fun _ a => Ok a.
Global Instance result_bind : MBind result := fun _ _ f r =>
  match r with
  | Ok a => f a
  | Raise e => Raise e
  end.

(** [int -> float64], as [numpy.array] does when a row mixes ints and
    floats.  Exact for every integer of magnitude below [2^53], which
    covers all the values the form can produce. *)
Definition float_of_Z (z : Z) : float :=
  if z <? 0
  then PrimFloat.opp (PrimFloat.of_uint63 (Uint63.of_Z (- z)))
  else PrimFloat.of_uint63 (Uint63.of_Z z).

(** A two-dimensional array, row major. *)
Definition matrix : Type := list (list float).

(** [xs[i]] for a non-negative constant index. *)
Definition subscript {A : Type} (xs : list A) (i : nat) : result A :=
  match xs !! i with
  | Some x => Ok x
  | None => Raise IndexError
  end.

(** An unpickled object, seen through the three things the script does
    with one: [bool(obj)], [obj.transform(X)] and [obj.predict(X)]. *)
Record object : Type := {
  truthy : bool;
  transform : matrix -> result matrix;
  predict : matrix -> result (list float)
}.

(** [bool(x)] for a name bound to an object or to [None]. *)
Definition truth (x : option object) : bool :=
  match x with
  | Some o => truthy o
  | None => false
  end.

(** [d[k]] for a name bound to a dict or to [None]. *)
Definition getitem (d : option (gmap string object)) (k : string)
  : result object :=
  match d with
  | Some m =>
      match m !! k with
      | Some o => Ok o
      | None => Raise (KeyError k)
      end
  | None => Raise (TypeError "'NoneType' object is not subscriptable")
  end.

(** [bool(d)] for a name bound to a dict or to [None]: a dict is truthy
    exactly when it has at least one key. *)
Definition truth_dict (d : option (gmap string object)) : bool :=
  match d with
  | Some m => negb (bool_decide (m = ∅))
  | None => false
  end.

End Py.
Import Py.

(** ** The disk at process start *)

(** What [joblib.load] does with a file that exists. *)
Inductive pickle : Type :=
| Loads (o : object)
| LoadRaises (e : exn).

(** The files present, by path. *)
Abbreviation disk := (gmap string pickle).

Definition os_path_exists (fs : disk) (path : string) : bool :=
  bool_decide (is_Some (fs !! path)).

Definition joblib_load (fs : disk) (path : string) : result object :=
  match fs !! path with
  | Some (Loads o) => Ok o
  | Some (LoadRaises e) => Raise e
  | None => Raise (FileNotFoundError path)
  end.

Definition MODEL_PATH : string := "models/champion_random_forest.pkl".
Definition SCALER_PATH : string := "models/scaler.pkl".

(** ** Section 2 of the script: artifact deserialization *)

(** The body of the [try] block of [load_artifacts]: each file is loaded
    only if it exists, and the first exception leaves the block. *)
Definition load_artifacts_try (fs : disk) : result (gmap string object) :=
  let artifacts : gmap string object := ∅ in
  artifacts ←
    (if os_path_exists fs MODEL_PATH
     then o ← joblib_load fs MODEL_PATH; mret (<["model" := o]> artifacts)
     else mret artifacts);
  artifacts ←
    (if os_path_exists fs SCALER_PATH
     then o ← joblib_load fs SCALER_PATH; mret (<["scaler" := o]> artifacts)
     else mret artifacts);
  mret artifacts.

(** [load_artifacts()]: the dict, or [None] when anything was raised.
    The [st.cache_resource] decorator only memoises this value. *)
Definition load_artifacts (fs : disk) : option (gmap string object) :=
  match load_artifacts_try fs with
  | Ok artifacts => Some artifacts
  | Raise _ => None
  end.

(** The module-level names [model] and [scaler]. *)
Record globals : Type := {
  model : option object;
  scaler : option object
}.

(** [assets[k] if assets else None]. *)
Definition asset_or_none (assets : option (gmap string object)) (k : string)
  : result (option object) :=
  if truth_dict assets
  then o ← getitem assets k; mret (Some o)
  else mret None.

(** Lines 47-49: what importing the script binds, or the exception that
    aborts the import. *)
Definition startup (fs : disk) : result globals :=
  let assets := load_artifacts fs in
  m ← asset_or_none assets "model";
  s ← asset_or_none assets "scaler";
  mret {| model := m; scaler := s |}.

(** ** Section 3 of the script: the form *)

Definition SEX_OPTIONS : list string := ["Male"; "Female"].

(** The option list of the region select box, in the order of line 111. *)
Definition REGION_OPTIONS : list string :=
  ["Southeast"; "Northwest"; "Southwest"; "Northeast"].

(** The six values the form hands to the pipeline. *)
Record RawInput : Type := {
  age : Z;
  bmi : float;
  sex : string;
  children : Z;
  smoker : bool;
  region : string
}.

(** What the browser session holds for each widget: [None] until the user
    has touched it.  Radio buttons and select boxes hold the position of
    the chosen option. *)
Record session : Type := {
  set_age : option Z;
  set_bmi : option float;
  set_sex : option nat;
  set_children : option Z;
  set_smoker : option bool;
  set_region : option nat
}.

(** A page that was just loaded: nothing touched yet. *)
Definition fresh_page : session := {|
  set_age := None; set_bmi := None; set_sex := None;
  set_children := None; set_smoker := None; set_region := None
|}.

(** Streamlit's widgets, as far as their return value goes: the value the
    user set, else the widget's default.  [st.radio] and [st.selectbox]
    are called without [index], so their default is position 0 of the
    option list (Streamlit returns [None] for an empty list; the script
    only passes the two literal lists above). *)
Module St.
Definition slider (value : Z) (user : option Z) : Z := default value user.
Definition number_input {A : Type} (value : A) (user : option A) : A :=
  default value user.
Definition toggle (value : bool) (user : option bool) : bool :=
  default value user.
Definition choice (options : list string) (user : option nat) : string :=
  default ""%string (options !! default 0%nat user).
Definition radio := choice.
Definition selectbox := choice.
End St.

(** Lines 81-111: the values of the six widgets. *)
Definition form (ui : session) : RawInput := {|
  age := St.slider 35 (set_age ui);
  bmi := St.number_input 30%float (set_bmi ui);
  sex := St.radio SEX_OPTIONS (set_sex ui);
  children := St.number_input 0 (set_children ui);
  smoker := St.toggle false (set_smoker ui);
  region := St.selectbox REGION_OPTIONS (set_region ui)
|}.

(** The ranges the widgets enforce (section 3 of the specification). *)
Definition valid_input (x : RawInput) : bool :=
  (18 <=? age x) && (age x <=? 100)
  && PrimFloat.leb 10%float (bmi x) && PrimFloat.leb (bmi x) 60%float
  && bool_decide (sex x ∈ SEX_OPTIONS)
  && (0 <=? children x) && (children x <=? 5)
  && bool_decide (region x ∈ REGION_OPTIONS).

(** ** What a run does: artifact calls and Streamlit calls, in order *)

(** One colour band of the gauge. *)
Record step : Type := {
  step_range : Z * Z;
  step_color : string
}.

(** The [gauge] dict of the Plotly indicator. *)
Record gauge : Type := {
  axis_range : Z * Z;
  bar_color : string;
  steps : list step;
  threshold_line_color : string;
  threshold_line_width : Z;
  threshold_thickness : float;
  threshold_value : float
}.

(** The Plotly figure of lines 177-192. *)
Record figure : Type := {
  fig_mode : string;
  fig_value : float;
  fig_number_prefix : string;
  fig_gauge : gauge;
  fig_height : Z;
  fig_margin : Z * Z * Z * Z
}.

Inductive event : Type :=
| ScalerTransform (X : matrix)
| ModelPredict (X : matrix)
| StError (msg : string)
| StSuccess (msg : string)
| StInfo (msg : string)
| StMetric (label : string) (amount : float)
| StPlotlyChart (fig : figure).

(** A computation that logs events and may raise. *)
Record M (A : Type) : Type := Run {
  trace : list event;
  outcome : result A
}.
Arguments Run {A} trace outcome.
Arguments trace {A} m.
Arguments outcome {A} m.

#[global] Instance M_ret : MRet M := fun _ a => Run [] (Ok a).
#[global] Instance M_bind : MBind M := fun _ _ f m =>
  match outcome m with
  | Ok a => Run (trace m ++ trace (f a)) (outcome (f a))
  | Raise e => Run (trace m) (Raise e)
  end.

Definition emit (e : event) : M unit := Run [e] (Ok tt).
Definition lift {A : Type} (r : result A) : M A := Run [] r.

(** [scaler.transform(X)] and [model.predict(X)] on a module-level name:
    on an object the call is logged and its result or exception is the
    object's; [None] has no such attribute. *)
Definition call_transform (s : option object) (X : matrix) : M matrix :=
  match s with
  | Some o => Run [ScalerTransform X] (transform o X)
  | None => lift (Raise (AttributeError "transform"))
  end.
Definition call_predict (m : option object) (X : matrix) : M (list float) :=
  match m with
  | Some o => Run [ModelPredict X] (predict o X)
  | None => lift (Raise (AttributeError "predict"))
  end.

(** ** The inference pipeline (lines 130-160) *)

(** Line 132. *)
Definition sex_val (sex : string) : Z := if String.eqb sex "Male" then 0 else 1.
(** Line 133. *)
Definition smoker_val (smoker : bool) : Z := if smoker then 1 else 0.
(** Lines 136-138. *)
Definition r_nw (region : string) : Z := if String.eqb region "Northwest" then 1 else 0.
Definition r_se (region : string) : Z := if String.eqb region "Southeast" then 1 else 0.
Definition r_sw (region : string) : Z := if String.eqb region "Southwest" then 1 else 0.
(** Line 142, on the value of [smoker_val]. *)
Definition cluster (smoker_val : Z) : Z := if smoker_val =? 1 then 2 else 1.

(** Line 146: the one-row array handed to the scaler. *)
Definition input_raw (x : RawInput) : matrix :=
  [[float_of_Z (age x); bmi x; float_of_Z (children x);
    float_of_Z (cluster (smoker_val (smoker x)))]].

(** Lines 132-154: from the form values to the one-row array handed to the
    model.  The only things that can go wrong are the scaler itself and
    the subscripts into what it returned. *)
Definition encode (s : option object) (x : RawInput) : M matrix :=
  let sex_val := sex_val (sex x) in
  let smoker_val := smoker_val (smoker x) in
  let r_nw := r_nw (region x) in
  let r_se := r_se (region x) in
  let r_sw := r_sw (region x) in
  scaled ← call_transform s (input_raw x);
  input_scaled ← lift (subscript scaled 0);
  s0 ← lift (subscript input_scaled 0);
  s1 ← lift (subscript input_scaled 1);
  s2 ← lift (subscript input_scaled 2);
  s3 ← lift (subscript input_scaled 3);
  mret [[s0; float_of_Z sex_val; s1; s2;
         float_of_Z smoker_val; float_of_Z r_nw; float_of_Z r_se;
         float_of_Z r_sw; s3]].

(** The fallback of lines 127 and 160. *)
Definition FALLBACK : float := 0%float.

(** Lines 127-160.  [if model and scaler] takes the first branch exactly
    when both names are truthy. *)
Definition inference (g : globals) (x : RawInput) : M float :=
  if truth (model g) && truth (scaler g)
  then final_vec ← encode (scaler g) x;
       ys ← call_predict (model g) final_vec;
       lift (subscript ys 0)
  else mret FALLBACK.

(** ** Post-processing and rendering (lines 165-193) *)

(** Which arm of the [if] / [elif] / [else] of lines 165-170 runs. *)
Inductive risk : Type := HighRisk | LowRisk | StandardRisk.

#[global] Instance risk_eq_dec : EqDecision risk.
Proof. solve_decision. Defined.

Definition risk_label (prediction : float) : risk :=
  if PrimFloat.ltb 30000%float prediction then HighRisk
  else if PrimFloat.ltb prediction 10000%float then LowRisk
  else StandardRisk.

Definition banner (r : risk) : event :=
  match r with
  | HighRisk =>
      StError "⚠️ High Risk Profile Detected: Premium exceeds standard thresholds."
  | LowRisk =>
      StSuccess "✅ Low Risk Profile: Optimal health markers identified."
  | StandardRisk =>
      StInfo "ℹ️ Standard Risk Profile: Aligns with market averages."
  end.

Definition GAUGE_STEPS : list step := [
  {| step_range := (2000, 15000); step_color := "#00b894" |};
  {| step_range := (15000, 35000); step_color := "#fdcb6e" |};
  {| step_range := (35000, 60000); step_color := "#ff7675" |}
].

Definition gauge_figure (prediction : float) : figure := {|
  fig_mode := "gauge+number";
  fig_value := prediction;
  fig_number_prefix := "$ ";
  fig_gauge := {|
    axis_range := (2000, 60000);
    bar_color := "rgba(0,0,0,0)";
    steps := GAUGE_STEPS;
    threshold_line_color := "black";
    threshold_line_width := 4;
    threshold_thickness := 0.75%float;
    threshold_value := prediction
  |};
  fig_height := 250;
  fig_margin := (20, 20, 20, 20)
|}.

(** Lines 165-193.  The KPI is logged with the number it formats. *)
Definition present (prediction : float) : M unit :=
  emit (banner (risk_label prediction));;
  emit (StMetric "ESTIMATED ANNUAL PREMIUM" prediction);;
  emit (StPlotlyChart (gauge_figure prediction)).

Definition IDLE_MESSAGE : string :=
  "Awaiting Input: Adjust parameters and execute prediction to view results.".

(** Lines 125-197: the report column of one script run. *)
Definition report (g : globals) (submitted : bool) (x : RawInput) : M unit :=
  if submitted
  then prediction ← inference g x; present prediction
  else emit (StInfo IDLE_MESSAGE).

(** [main()]: one run of the script body, for the module-level names [g],
    the widget state [ui] and the state of the submit button.  The layout
    calls (title, columns, captions) return nothing the pipeline reads and
    are left out of the trace. *)
Definition main (g : globals) (ui : session) (submitted : bool) : M unit :=
  report g submitted (form ui).

(** ** Derived views of a run *)

(** The three banner calls. *)
Definition is_banner (e : event) : bool :=
  match e with
  | StError _ | StSuccess _ | StInfo _ => true
  | _ => false
  end.

(** The ends of the colour bands, left to right. *)
Definition band_edges (l : list step) : list Z :=
  flat_map (λ b, [(step_range b).1; (step_range b).2]) l.

(** What the report column shows on the fallback path. *)
Definition FALLBACK_REPORT : list event :=
  [StSuccess "✅ Low Risk Profile: Optimal health markers identified.";
   StMetric "ESTIMATED ANNUAL PREMIUM" 0%float;
   StPlotlyChart (gauge_figure 0%float)].

(** ** Sample artifacts and inputs, used to instantiate the theorems *)

(** A scaler that subtracts nothing and divides by one. *)
Definition identity_scaler : object := {|
  truthy := true;
  transform := fun X => Ok X;
  predict := fun _ => Raise (AttributeError "predict")
|}.

(** A regressor that answers [y] for every row. *)
Definition constant_model (y : float) : object := {|
  truthy := true;
  transform := fun _ => Raise (AttributeError "transform");
  predict := fun X => Ok (map (fun _ => y) X)
|}.

(** A regressor whose [__len__] is 0 (an ensemble without estimators):
    it unpickles fine and is falsy. *)
Definition empty_ensemble : object := {|
  truthy := false;
  transform := fun _ => Raise (AttributeError "transform");
  predict := fun X => Ok (map (fun _ => 0%float) X)
|}.

(** Scenario 1 of the specification; it is also what the form holds on a
    page nobody has touched. *)
Definition scenario1 : RawInput := {|
  age := 35; bmi := 30%float; sex := "Male"; children := 0;
  smoker := false; region := "Southeast"
|}.

(** The model file unpickles, then the scaler file raises. *)
Definition disk_scaler_corrupt : disk :=
  <[SCALER_PATH := LoadRaises (OtherException "UnpicklingError")]>
    (<[MODEL_PATH := Loads (constant_model 12000%float)]> ∅).

(** Both files unpickle; the regressor is falsy. *)
Definition disk_falsy_model : disk :=
  <[SCALER_PATH := Loads identity_scaler]>
    (<[MODEL_PATH := Loads empty_ensemble]> ∅).

(** Only the model file is on the disk. *)
Definition disk_model_only : disk :=
  <[MODEL_PATH := Loads (constant_model 12000%float)]> ∅.

(** A regressor that answers with an empty array. *)
Definition silent_model : object := {|
  truthy := true;
  transform := fun _ => Raise (AttributeError "transform");
  predict := fun _ => Ok []
|}.

(** A scaler fitted on another number of columns. *)
Definition mismatched_scaler : object := {|
  truthy := true;
  transform := fun _ => Raise (OtherException "ValueError");
  predict := fun _ => Raise (AttributeError "predict")
|}.

(** Both files unpickle to truthy objects. *)
Definition disk_both : disk :=
  <[SCALER_PATH := Loads identity_scaler]>
    (<[MODEL_PATH := Loads (constant_model 12000%float)]> ∅).

(** ** Reruns of the script and the resource cache *)

(** Streamlit runs the script from the top on every interaction, so lines
    47-49 are executed again each time; [st.cache_resource] keeps, for the
    life of the process, the value the first call of [load_artifacts]
    returned (a dict or [None]) and hands it out again without reading the
    disk.  The cache is [None] until that first call. *)
Definition cache : Type := option (option (gmap string object)).

Definition load_artifacts_cached (c : cache) (fs : disk)
  : option (gmap string object) * cache :=
  match c with
  | Some assets => (assets, c)
  | None => let assets := load_artifacts fs in (assets, Some assets)
  end.

(** Lines 48-49 on a given value of [assets]. *)
Definition bind_names (assets : option (gmap string object)) : result globals :=
  m ← asset_or_none assets "model";
  s ← asset_or_none assets "scaler";
  mret {| model := m; scaler := s |}.

(** One run of the script: lines 47-49, then [main()] (line 200).  An
    exception at module level ends the run before [main] is reached. *)
Definition script_run (c : cache) (fs : disk) (ui : session) (submitted : bool)
  : M unit * cache :=
  let '(assets, c') := load_artifacts_cached c fs in
  (match bind_names assets with
   | Ok g => main g ui submitted
   | Raise e => Run [] (Raise e)
   end, c').

(** * Properties *)

(** Two distinct literal dict keys. *)
Ltac distinct_keys := let H := fresh in intros H; discriminate H.

(** ** Startup *)

Section Startup.
Variable fs : disk.

Lemma exists_true (path : string) (p : pickle) :
  fs !! path = Some p → os_path_exists fs path = true.
Proof. intros H. unfold os_path_exists. rewrite H. by apply bool_decide_eq_true_2. Qed.

Lemma exists_false (path : string) :
  fs !! path = None → os_path_exists fs path = false.
Proof.
  intros H. unfold os_path_exists. rewrite H.
  apply bool_decide_eq_false_2. by intros [? ?].
Qed.

Lemma load_ok (path : string) (o : object) :
  fs !! path = Some (Loads o) → joblib_load fs path = Ok o.
Proof. intros H. unfold joblib_load. by rewrite H. Qed.

Lemma load_raises (path : string) (e : exn) :
  fs !! path = Some (LoadRaises e) → joblib_load fs path = Raise e.
Proof. intros H. unfold joblib_load. by rewrite H. Qed.

(** The four outcomes of [load_artifacts] that do not involve a raise. *)
Lemma load_artifacts_both (m s : object) :
  fs !! MODEL_PATH = Some (Loads m) → fs !! SCALER_PATH = Some (Loads s) →
  load_artifacts fs = Some (<["scaler" := s]> (<["model" := m]> ∅)).
Proof.
  intros Hm Hs. unfold load_artifacts, load_artifacts_try.
  by rewrite (exists_true _ _ Hm), (exists_true _ _ Hs), (load_ok _ _ Hm), (load_ok _ _ Hs).
Qed.

Lemma load_artifacts_model_only (m : object) :
  fs !! MODEL_PATH = Some (Loads m) → fs !! SCALER_PATH = None →
  load_artifacts fs = Some (<["model" := m]> ∅).
Proof.
  intros Hm Hs. unfold load_artifacts, load_artifacts_try.
  by rewrite (exists_true _ _ Hm), (exists_false _ Hs), (load_ok _ _ Hm).
Qed.

Lemma load_artifacts_scaler_only (s : object) :
  fs !! MODEL_PATH = None → fs !! SCALER_PATH = Some (Loads s) →
  load_artifacts fs = Some (<["scaler" := s]> ∅).
Proof.
  intros Hm Hs. unfold load_artifacts, load_artifacts_try.
  by rewrite (exists_false _ Hm), (exists_true _ _ Hs), (load_ok _ _ Hs).
Qed.

Lemma load_artifacts_neither :
  fs !! MODEL_PATH = None → fs !! SCALER_PATH = None →
  load_artifacts fs = Some ∅.
Proof.
  intros Hm Hs. unfold load_artifacts, load_artifacts_try.
  by rewrite (exists_false _ Hm), (exists_false _ Hs).
Qed.

(** A raise anywhere in the [try] block empties the result. *)
Lemma load_artifacts_raise (e : exn) :
  fs !! MODEL_PATH = Some (LoadRaises e) ∨ fs !! SCALER_PATH = Some (LoadRaises e) →
  load_artifacts fs = None.
Proof.
  intros [Hm | Hs]; unfold load_artifacts, load_artifacts_try.
  - by rewrite (exists_true _ _ Hm), (load_raises _ _ Hm).
  - rewrite (exists_true _ _ Hs), (load_raises _ _ Hs).
    destruct (os_path_exists fs MODEL_PATH); [| done].
    by destruct (joblib_load fs MODEL_PATH).
Qed.
End Startup.

Section Dict.
Variable d : gmap string object.

Lemma getitem_insert_eq (k : string) (o : object) :
  getitem (Some (<[k := o]> d)) k = Ok o.
Proof. unfold getitem. by rewrite lookup_insert_eq. Qed.

Lemma getitem_insert_ne (k k' : string) (o : object) :
  k ≠ k' → getitem (Some (<[k := o]> d)) k' = getitem (Some d) k'.
Proof. intros Hne. unfold getitem. by rewrite lookup_insert_ne. Qed.

Lemma getitem_empty (k : string) : getitem (Some ∅) k = Raise (KeyError k).
Proof. unfold getitem. by rewrite lookup_empty. Qed.

Lemma truth_dict_insert (k : string) (o : object) :
  truth_dict (Some (<[k := o]> d)) = true.
Proof.
  unfold truth_dict. rewrite bool_decide_eq_false_2; [done |].
  apply insert_non_empty.
Qed.

Lemma truth_dict_empty : truth_dict (Some ∅) = false.
Proof. unfold truth_dict. by rewrite bool_decide_eq_true_2. Qed.
End Dict.

Section StartupOutcome.
Variable fs : disk.

(** Both files load: both names are bound to their objects. *)
Lemma startup_both (m s : object) :
  fs !! MODEL_PATH = Some (Loads m) → fs !! SCALER_PATH = Some (Loads s) →
  startup fs = Ok {| model := Some m; scaler := Some s |}.
Proof.
  intros Hm Hs. unfold startup. rewrite (load_artifacts_both _ _ _ Hm Hs).
  unfold asset_or_none. rewrite truth_dict_insert.
  rewrite (getitem_insert_ne _ "scaler" "model") by distinct_keys.
  by rewrite !getitem_insert_eq.
Qed.

(** Neither file exists: the dict is empty, hence falsy, and both names
    are [None]. *)
Lemma startup_neither :
  fs !! MODEL_PATH = None → fs !! SCALER_PATH = None →
  startup fs = Ok {| model := None; scaler := None |}.
Proof.
  intros Hm Hs. unfold startup. rewrite (load_artifacts_neither _ Hm Hs).
  unfold asset_or_none. by rewrite truth_dict_empty.
Qed.

(** Only the model file exists: the dict is non-empty, hence truthy, and
    has no ["scaler"] key. *)
Lemma startup_model_only (m : object) :
  fs !! MODEL_PATH = Some (Loads m) → fs !! SCALER_PATH = None →
  startup fs = Raise (KeyError "scaler").
Proof.
  intros Hm Hs. unfold startup. rewrite (load_artifacts_model_only _ _ Hm Hs).
  unfold asset_or_none. rewrite truth_dict_insert.
  rewrite (getitem_insert_ne _ "model" "scaler") by distinct_keys.
  by rewrite getitem_insert_eq, getitem_empty.
Qed.

(** Only the scaler file exists: the first subscript already fails. *)
Lemma startup_scaler_only (s : object) :
  fs !! MODEL_PATH = None → fs !! SCALER_PATH = Some (Loads s) →
  startup fs = Raise (KeyError "model").
Proof.
  intros Hm Hs. unfold startup. rewrite (load_artifacts_scaler_only _ _ Hm Hs).
  unfold asset_or_none. rewrite truth_dict_insert.
  rewrite (getitem_insert_ne _ "scaler" "model") by distinct_keys.
  by rewrite getitem_empty.
Qed.

(** A raising load: [assets] is [None], hence falsy. *)
Lemma startup_raise (e : exn) :
  fs !! MODEL_PATH = Some (LoadRaises e) ∨ fs !! SCALER_PATH = Some (LoadRaises e) →
  startup fs = Ok {| model := None; scaler := None |}.
Proof.
  intros H. unfold startup. by rewrite (load_artifacts_raise _ _ H).
Qed.
End StartupOutcome.

(** ** One script run *)

Lemma present_run (p : float) :
  present p =
  Run [banner (risk_label p);
       StMetric "ESTIMATED ANNUAL PREMIUM" p;
       StPlotlyChart (gauge_figure p)] (Ok tt).
Proof. reflexivity. Qed.

(** [None] is falsy, so a missing artifact closes the guard of line 130. *)
Lemma guard_closed_of_none (g : globals) :
  model g = None ∨ scaler g = None → truth (model g) && truth (scaler g) = false.
Proof.
  intros [H | H]; rewrite H; cbn; [done |]. by rewrite andb_false_r.
Qed.

Lemma guard_closed_of_falsy (m s : object) :
  truthy m = false ∨ truthy s = false → truth (Some m) && truth (Some s) = false.
Proof.
  intros [H | H]; cbn; rewrite H; [done |]. by rewrite andb_false_r.
Qed.

(** With the guard closed, no artifact is called and the fallback is the
    prediction. *)
Lemma inference_fallback (g : globals) (x : RawInput) :
  truth (model g) && truth (scaler g) = false →
  inference g x = Run [] (Ok FALLBACK).
Proof. intros H. unfold inference. by rewrite H. Qed.

Lemma risk_label_fallback : risk_label FALLBACK = LowRisk.
Proof. reflexivity. Qed.

Lemma report_fallback (g : globals) (x : RawInput) :
  truth (model g) && truth (scaler g) = false →
  report g true x = Run FALLBACK_REPORT (Ok tt).
Proof.
  intros H. unfold report. rewrite (inference_fallback _ _ H). reflexivity.
Qed.

(** ** Claims about startup and the fallback path *)

(** C2: whenever [model] or [scaler] is [None] at a submission, neither
    artifact is called (the inference step logs no event), the prediction
    is the fallback [0.0], the report column is still rendered in full
    (banner, KPI, gauge), and the banner is the one of the "Low Risk" arm
    ([0.0 < 10000]), not the "Standard Risk" one. *)
Theorem fallback_when_unavailable (g : globals) (x : RawInput) :
  model g = None ∨ scaler g = None →
  inference g x = Run [] (Ok FALLBACK)
  ∧ FALLBACK = 0%float
  ∧ report g true x = Run FALLBACK_REPORT (Ok tt)
  ∧ FALLBACK_REPORT =
      [banner LowRisk; StMetric "ESTIMATED ANNUAL PREMIUM" FALLBACK;
       StPlotlyChart (gauge_figure FALLBACK)]
  ∧ PrimFloat.ltb FALLBACK 10000%float = true
  ∧ risk_label FALLBACK = LowRisk
  ∧ risk_label FALLBACK ≠ StandardRisk.
Proof.
  intros H. pose proof (guard_closed_of_none g H) as Hg.
  split; [by apply inference_fallback |].
  split; [done |].
  split; [by apply report_fallback |].
  repeat split; try done.
Qed.

Lemma fallback_when_unavailable_witness :
  let g := {| model := None; scaler := Some identity_scaler |} in
  inference g scenario1 = Run [] (Ok FALLBACK)
  ∧ FALLBACK = 0%float
  ∧ report g true scenario1 = Run FALLBACK_REPORT (Ok tt)
  ∧ FALLBACK_REPORT =
      [banner LowRisk; StMetric "ESTIMATED ANNUAL PREMIUM" FALLBACK;
       StPlotlyChart (gauge_figure FALLBACK)]
  ∧ PrimFloat.ltb FALLBACK 10000%float = true
  ∧ risk_label FALLBACK = LowRisk
  ∧ risk_label FALLBACK ≠ StandardRisk.
Proof.
  exact (fallback_when_unavailable
           {| model := None; scaler := Some identity_scaler |} scenario1
           (or_introl eq_refl)).
Defined.

(** C7: when [joblib.load] raises on either file, [load_artifacts] returns
    [None] whatever the other file did, both [model] and [scaler] are
    [None], the import itself raises nothing, and a submission renders the
    ordinary fallback report, which contains no error banner. *)
Theorem load_failure_is_total (fs : disk) (e : exn) (x : RawInput) :
  fs !! MODEL_PATH = Some (LoadRaises e) ∨ fs !! SCALER_PATH = Some (LoadRaises e) →
  load_artifacts fs = None
  ∧ startup fs = Ok {| model := None; scaler := None |}
  ∧ report {| model := None; scaler := None |} true x = Run FALLBACK_REPORT (Ok tt)
  ∧ (∀ msg, StError msg ∉ FALLBACK_REPORT).
Proof.
  intros H.
  split; [by apply (load_artifacts_raise fs e) |].
  split; [by apply (startup_raise fs e) |].
  split; [by apply report_fallback |].
  intros msg Hin. unfold FALLBACK_REPORT in Hin.
  repeat (apply elem_of_cons in Hin as [Hin | Hin]; [discriminate Hin |]).
  by apply elem_of_nil in Hin.
Qed.

Lemma load_failure_is_total_witness :
  load_artifacts disk_scaler_corrupt = None
  ∧ startup disk_scaler_corrupt = Ok {| model := None; scaler := None |}
  ∧ report {| model := None; scaler := None |} true scenario1
    = Run FALLBACK_REPORT (Ok tt)
  ∧ (∀ msg, StError msg ∉ FALLBACK_REPORT).
Proof.
  exact (load_failure_is_total disk_scaler_corrupt
           (OtherException "UnpicklingError") scenario1
           (or_intror eq_refl)).
Defined.

(** C10: the guard of line 130 tests truthiness, not presence.  When both
    files unpickle, both names are bound to the unpickled objects; if
    either object is falsy, the submission still takes the fallback path:
    no artifact is called and the prediction is [0.0]. *)
Theorem availability_is_truthiness (fs : disk) (m s : object) (x : RawInput) :
  fs !! MODEL_PATH = Some (Loads m) →
  fs !! SCALER_PATH = Some (Loads s) →
  truthy m = false ∨ truthy s = false →
  startup fs = Ok {| model := Some m; scaler := Some s |}
  ∧ inference {| model := Some m; scaler := Some s |} x = Run [] (Ok FALLBACK)
  ∧ report {| model := Some m; scaler := Some s |} true x
    = Run FALLBACK_REPORT (Ok tt).
Proof.
  intros Hm Hs Hf. pose proof (guard_closed_of_falsy m s Hf) as Hg.
  split; [by apply startup_both |].
  split; [by apply inference_fallback | by apply report_fallback].
Qed.

Lemma availability_is_truthiness_witness :
  let g := {| model := Some empty_ensemble; scaler := Some identity_scaler |} in
  startup disk_falsy_model = Ok g
  ∧ inference g scenario1 = Run [] (Ok FALLBACK)
  ∧ report g true scenario1 = Run FALLBACK_REPORT (Ok tt).
Proof.
  exact (availability_is_truthiness disk_falsy_model
           empty_ensemble identity_scaler scenario1
           eq_refl eq_refl (or_introl eq_refl)).
Defined.

(** C4: the loader itself tolerates one missing file and keeps the other
    artifact, but lines 48-49 then subscript the non-empty dict with the
    key that is not there: the import is aborted by a [KeyError] and no
    submission is ever served.  Only when both files are missing (an empty,
    falsy dict) does startup reach the fallback path. *)
Theorem one_missing_file_aborts_startup (fs : disk) (o : object) :
  (fs !! MODEL_PATH = Some (Loads o) ∧ fs !! SCALER_PATH = None →
     load_artifacts fs = Some (<["model" := o]> ∅)
     ∧ startup fs = Raise (KeyError "scaler"))
  ∧ (fs !! MODEL_PATH = None ∧ fs !! SCALER_PATH = Some (Loads o) →
     load_artifacts fs = Some (<["scaler" := o]> ∅)
     ∧ startup fs = Raise (KeyError "model"))
  ∧ (fs !! MODEL_PATH = None ∧ fs !! SCALER_PATH = None →
     startup fs = Ok {| model := None; scaler := None |}).
Proof.
  split; [| split].
  - intros [Hm Hs]. split.
    + by apply load_artifacts_model_only.
    + by apply (startup_model_only fs o).
  - intros [Hm Hs]. split.
    + by apply load_artifacts_scaler_only.
    + by apply (startup_scaler_only fs o).
  - intros [Hm Hs]. by apply startup_neither.
Qed.

Example startup_disk_model_only :
  startup disk_model_only = Raise (KeyError "scaler").
Proof. by apply (startup_model_only disk_model_only (constant_model 12000%float)). Qed.

(** ** The risk banner *)

Section Thresholds.
Local Open Scope float_scope.

(** The two thresholds as the comparison sees them. *)
Lemma threshold_high_bits : Prim2SF 30000 = S754_finite false 8246337208320000 (-38).
Proof. reflexivity. Qed.

Lemma threshold_low_bits : Prim2SF 10000 = S754_finite false 5497558138880000 (-39).
Proof. reflexivity. Qed.

(** Between two positive finite values, [<] implies the same order (or
    equality) of the exponents. *)
Lemma SFltb_finite_pos (m1 m2 : positive) (e1 e2 : Z) :
  SFltb (S754_finite false m1 e1) (S754_finite false m2 e2) = true →
  (e1 ≤ e2)%Z.
Proof.
  unfold SFltb, SFcompare.
  destruct (Z.compare_spec e1 e2) as [-> | Hlt | Hgt]; intros H.
  - lia.
  - lia.
  - discriminate H.
Qed.

(** No binary64 value is both below 10000 and above 30000, so the order
    of the two tests never decides between "High" and "Low". *)
Lemma thresholds_disjoint (p : float) :
  (p <? 10000) = true → (30000 <? p) = false.
Proof.
  rewrite !ltb_spec, threshold_high_bits, threshold_low_bits.
  destruct (Prim2SF p) as [s | s | | s m e].
  - destruct s; reflexivity.
  - destruct s; [reflexivity | intros H; discriminate H].
  - reflexivity.
  - destruct s; [reflexivity |].
    intros Hlow. apply SFltb_finite_pos in Hlow.
    destruct (SFltb (S754_finite false 8246337208320000 (-38))
                    (S754_finite false m e)) eqn:Hhigh; [| reflexivity].
    apply SFltb_finite_pos in Hhigh. lia.
Qed.

Lemma risk_label_high (p : float) :
  risk_label p = HighRisk ↔ (30000 <? p) = true.
Proof. unfold risk_label. destruct (30000 <? p), (p <? 10000); split; done. Qed.

Lemma risk_label_low (p : float) :
  risk_label p = LowRisk ↔ (p <? 10000) = true.
Proof.
  unfold risk_label. split.
  - destruct (30000 <? p), (p <? 10000); done.
  - intros H. by rewrite (thresholds_disjoint p H), H.
Qed.

Lemma risk_label_standard (p : float) :
  risk_label p = StandardRisk ↔ (30000 <? p) = false ∧ (p <? 10000) = false.
Proof.
  unfold risk_label. destruct (30000 <? p), (p <? 10000); split; try done.
  all: by intros [? ?].
Qed.
End Thresholds.

(** C3: for every binary64 prediction (infinities and NaN included) the
    presenter shows exactly one banner, chosen by first match: "High Risk"
    iff [prediction > 30000]; otherwise "Low Risk" iff [prediction < 10000]
    (and, the two tests being disjoint, simply iff [prediction < 10000]);
    otherwise "Standard Risk".  30001 is High, 9999 is Low and 20000 is
    Standard. *)
Theorem risk_label_first_match (p : float) :
  (risk_label p = HighRisk ↔ PrimFloat.ltb 30000%float p = true)
  ∧ (risk_label p = LowRisk ↔
       PrimFloat.ltb 30000%float p = false ∧ PrimFloat.ltb p 10000%float = true)
  ∧ (risk_label p = LowRisk ↔ PrimFloat.ltb p 10000%float = true)
  ∧ (risk_label p = StandardRisk ↔
       PrimFloat.ltb 30000%float p = false ∧ PrimFloat.ltb p 10000%float = false)
  ∧ filter (λ e, is_banner e = true) (trace (present p)) = [banner (risk_label p)]
  ∧ (∀ r, banner r ∈ trace (present p) ↔ r = risk_label p)
  ∧ risk_label 30001%float = HighRisk
  ∧ risk_label 9999%float = LowRisk
  ∧ risk_label 20000%float = StandardRisk.
Proof.
  split; [apply risk_label_high |].
  split.
  { rewrite risk_label_low. split.
    - intros H. split; [by apply thresholds_disjoint | done].
    - by intros [_ H]. }
  split; [apply risk_label_low |].
  split; [apply risk_label_standard |].
  split.
  { rewrite present_run. by destruct (risk_label p). }
  split; [| done].
  intros r. rewrite present_run. split.
  - intros Hin.
    apply elem_of_cons in Hin as [Hin | Hin].
    + by destruct r, (risk_label p).
    + apply elem_of_cons in Hin as [Hin | Hin]; [by destruct r |].
      apply elem_of_cons in Hin as [Hin | Hin]; [by destruct r |].
      by apply elem_of_nil in Hin.
  - intros ->. apply elem_of_cons. by left.
Qed.

(** The corners of the number line. *)
Example risk_label_nan : risk_label PrimFloat.nan = StandardRisk.
Proof. reflexivity. Qed.

Example risk_label_infinity : risk_label PrimFloat.infinity = HighRisk.
Proof. reflexivity. Qed.

Example risk_label_neg_infinity : risk_label PrimFloat.neg_infinity = LowRisk.
Proof. reflexivity. Qed.

Example risk_label_at_thresholds :
  risk_label 30000%float = StandardRisk ∧ risk_label 10000%float = StandardRisk.
Proof. split; reflexivity. Qed.

(** ** The encoder *)

Section Encoder.
Variable s : object.
Variable x : RawInput.

(** When the scaler hands back a first row of at least four numbers, the
    encoder calls it once and assembles the nine-element row. *)
Lemma encode_run (a b c d : float) (rest : list float) (more : matrix) :
  transform s (input_raw x) = Ok ((a :: b :: c :: d :: rest) :: more) →
  encode (Some s) x =
  Run [ScalerTransform (input_raw x)]
      (Ok [[a; float_of_Z (sex_val (sex x)); b; c;
            float_of_Z (smoker_val (smoker x));
            float_of_Z (r_nw (region x)); float_of_Z (r_se (region x));
            float_of_Z (r_sw (region x)); d]]).
Proof.
  intros H. unfold encode, call_transform, mbind, M_bind. cbn.
  rewrite H. reflexivity.
Qed.

(** A scaler that raises stops the encoder after the call. *)
Lemma encode_scaler_raises (e : exn) :
  transform s (input_raw x) = Raise e →
  encode (Some s) x = Run [ScalerTransform (input_raw x)] (Raise e).
Proof.
  intros H. unfold encode, call_transform, mbind, M_bind. cbn.
  rewrite H. reflexivity.
Qed.

(** A first row of fewer than four numbers ends in an [IndexError]. *)
Lemma encode_short_row (row : list float) (more : matrix) :
  transform s (input_raw x) = Ok (row :: more) →
  (length row < 4)%nat →
  encode (Some s) x = Run [ScalerTransform (input_raw x)] (Raise IndexError).
Proof.
  intros H Hlen. unfold encode, call_transform, mbind, M_bind. cbn.
  rewrite H. cbn.
  destruct row as [| a [| b [| c [| d rest]]]]; cbn in *; try reflexivity.
  lia.
Qed.
End Encoder.

(** C1: for every form input and every loaded scaler that maps the raw
    quad to (at least) four numbers [a, b, c, d], the scaler is called once,
    on [[age, bmi, children, cluster]] in that order, and the encoder yields
    one row of exactly nine numbers in the order
    [a, sex_bit, b, c, smoker_bit, nw_bit, se_bit, sw_bit, d]. *)
Theorem feature_vector_layout (s : object) (x : RawInput)
    (a b c d : float) (rest : list float) (more : matrix) :
  transform s (input_raw x) = Ok ((a :: b :: c :: d :: rest) :: more) →
  input_raw x =
    [[float_of_Z (age x); bmi x; float_of_Z (children x);
      float_of_Z (cluster (smoker_val (smoker x)))]]
  ∧ ∃ v : list float,
      encode (Some s) x = Run [ScalerTransform (input_raw x)] (Ok [v])
      ∧ length v = 9%nat
      ∧ v = [a; float_of_Z (sex_val (sex x)); b; c;
             float_of_Z (smoker_val (smoker x));
             float_of_Z (r_nw (region x)); float_of_Z (r_se (region x));
             float_of_Z (r_sw (region x)); d].
Proof.
  intros H. split; [reflexivity |].
  eexists. split; [by apply (encode_run s x a b c d rest more) |].
  split; reflexivity.
Qed.

Lemma feature_vector_layout_witness :
  input_raw scenario1 = [[35%float; 30%float; 0%float; 1%float]]
  ∧ ∃ v : list float,
      encode (Some identity_scaler) scenario1
      = Run [ScalerTransform (input_raw scenario1)] (Ok [v])
      ∧ length v = 9%nat
      ∧ v = [35%float; 0%float; 30%float; 0%float; 0%float;
             0%float; 1%float; 0%float; 1%float].
Proof.
  exact (feature_vector_layout identity_scaler scenario1
           35%float 30%float 0%float 1%float [] [] eq_refl).
Defined.

(** With both artifacts truthy, the model is asked about exactly the row the
    encoder built, and its first answer is the prediction. *)
Lemma inference_available (m s : object) (x : RawInput)
    (a b c d : float) (rest : list float) (more : matrix) :
  truthy m = true → truthy s = true →
  transform s (input_raw x) = Ok ((a :: b :: c :: d :: rest) :: more) →
  let v := [[a; float_of_Z (sex_val (sex x)); b; c;
             float_of_Z (smoker_val (smoker x));
             float_of_Z (r_nw (region x)); float_of_Z (r_se (region x));
             float_of_Z (r_sw (region x)); d]] in
  inference {| model := Some m; scaler := Some s |} x =
  Run [ScalerTransform (input_raw x); ModelPredict v]
      (ys ← predict m v; subscript ys 0).
Proof.
  intros Hm Hs H v. unfold inference. cbn [model scaler truth]. rewrite Hm, Hs.
  cbn [andb]. rewrite (encode_run s x a b c d rest more H).
  unfold mbind, M_bind, call_predict, lift. cbn. fold v.
  destruct (predict m v); reflexivity.
Qed.

Example inference_scenario1 :
  inference {| model := Some (constant_model 12000%float);
               scaler := Some identity_scaler |} scenario1
  = Run [ScalerTransform [[35%float; 30%float; 0%float; 1%float]];
         ModelPredict [[35%float; 0%float; 30%float; 0%float; 0%float;
                        0%float; 1%float; 0%float; 1%float]]]
        (Ok 12000%float).
Proof. reflexivity. Qed.

(** ** Categorical encodings *)

Lemma sex_val_male (sex : string) : sex = "Male" → sex_val sex = 0.
Proof. intros ->. reflexivity. Qed.

Lemma sex_val_other (sex : string) : sex ≠ "Male" → sex_val sex = 1.
Proof.
  intros Hne. unfold sex_val.
  destruct (String.eqb_spec sex "Male") as [Heq | _]; [by destruct Hne | done].
Qed.

(** A one-hot bit is 1 exactly on its own region name. *)
Lemma one_hot_bit (name region : string) :
  (if String.eqb region name then 1 else 0) = 1 ↔ region = name.
Proof.
  destruct (String.eqb_spec region name) as [Heq | Hne]; split; try done.
Qed.

(** C5: for every form input, [sex_bit] is 0 for "Male" and 1 for anything
    else, [smoker_bit] is 1 for a smoker and 0 otherwise, and the cluster
    is 2 when [smoker_bit == 1] and 1 otherwise; so the cluster is 2 exactly
    when the smoker toggle is on, whatever the other five fields are. *)
Theorem categorical_encodings (x : RawInput) :
  (sex x = "Male" → sex_val (sex x) = 0)
  ∧ (sex x ≠ "Male" → sex_val (sex x) = 1)
  ∧ smoker_val (smoker x) = (if smoker x then 1 else 0)
  ∧ (∀ v : Z, cluster v = if bool_decide (v = 1) then 2 else 1)
  ∧ cluster (smoker_val (smoker x)) = (if smoker x then 2 else 1)
  ∧ (cluster (smoker_val (smoker x)) = 2 ↔ smoker x = true)
  ∧ (∀ y : RawInput, smoker y = smoker x →
       cluster (smoker_val (smoker y)) = cluster (smoker_val (smoker x))).
Proof.
  split; [apply sex_val_male |].
  split; [apply sex_val_other |].
  split; [reflexivity |].
  split.
  { intros v. unfold cluster. destruct (Z.eqb_spec v 1) as [-> | Hne].
    - by rewrite bool_decide_eq_true_2.
    - by rewrite bool_decide_eq_false_2. }
  split; [by destruct (smoker x) |].
  split; [by destruct (smoker x) |].
  by intros y ->.
Qed.

(** C6: for every form input, each region bit is 1 exactly on its own
    region name (and 0 otherwise); hence exactly one of the three bits is 1
    for Northwest, Southeast and Southwest, and all three are 0 for
    Northeast. *)
Theorem region_one_hot (x : RawInput) :
  (r_nw (region x) = 1 ↔ region x = "Northwest")
  ∧ (r_se (region x) = 1 ↔ region x = "Southeast")
  ∧ (r_sw (region x) = 1 ↔ region x = "Southwest")
  ∧ (r_nw (region x) ∈ [0; 1] ∧ r_se (region x) ∈ [0; 1] ∧ r_sw (region x) ∈ [0; 1])
  ∧ (region x ∈ ["Northwest"; "Southeast"; "Southwest"] →
       r_nw (region x) + r_se (region x) + r_sw (region x) = 1)
  ∧ (region x = "Northeast" →
       r_nw (region x) = 0 ∧ r_se (region x) = 0 ∧ r_sw (region x) = 0).
Proof.
  split; [apply one_hot_bit |].
  split; [apply one_hot_bit |].
  split; [apply one_hot_bit |].
  split.
  { unfold r_nw, r_se, r_sw.
    destruct (String.eqb (region x) "Northwest"),
             (String.eqb (region x) "Southeast"),
             (String.eqb (region x) "Southwest");
      repeat split; set_solver. }
  split.
  - intros Hin.
    repeat (apply elem_of_cons in Hin as [-> | Hin]; [reflexivity |]).
    by apply elem_of_nil in Hin.
  - intros ->. repeat split; reflexivity.
Qed.

(** Scenario 1 of the specification. *)
Example scenario1_encodings :
  sex_val (sex scenario1) = 0
  ∧ smoker_val (smoker scenario1) = 0
  ∧ cluster (smoker_val (smoker scenario1)) = 1
  ∧ (r_nw (region scenario1), r_se (region scenario1), r_sw (region scenario1))
    = (0, 1, 0).
Proof. repeat split; reflexivity. Qed.

(** ** The gauge *)

(** C8: whatever the prediction, the gauge has axis range [2000, 60000]
    and the same three bands, 2000-15000 in [#00b894] (green), 15000-35000
    in [#fdcb6e] (amber) and 35000-60000 in [#ff7675] (red), which tile the
    axis; the threshold marker (and the displayed number) is the
    prediction; the figure is what the report hands to [st.plotly_chart];
    and the band ends are literals of their own: neither risk-label
    threshold (10000, 30000) is among them. *)
Theorem gauge_is_fixed (p : float) :
  let g := fig_gauge (gauge_figure p) in
  axis_range g = (2000, 60000)
  ∧ steps g =
      [ {| step_range := (2000, 15000); step_color := "#00b894" |};
        {| step_range := (15000, 35000); step_color := "#fdcb6e" |};
        {| step_range := (35000, 60000); step_color := "#ff7675" |} ]
  ∧ band_edges (steps g) = [2000; 15000; 15000; 35000; 35000; 60000]
  ∧ threshold_value g = p
  ∧ fig_value (gauge_figure p) = p
  ∧ (∀ q : float,
       axis_range (fig_gauge (gauge_figure q)) = axis_range g
       ∧ steps (fig_gauge (gauge_figure q)) = steps g)
  ∧ last (trace (present p)) = Some (StPlotlyChart (gauge_figure p))
  ∧ (10000 ∉ band_edges (steps g))
  ∧ (30000 ∉ band_edges (steps g))
  ∧ float_of_Z 10000 = 10000%float ∧ float_of_Z 30000 = 30000%float.
Proof.
  cbn zeta. repeat split; try reflexivity.
  - cbn. intros Hin.
    repeat (apply elem_of_cons in Hin as [Hin | Hin]; [discriminate Hin |]).
    by apply elem_of_nil in Hin.
  - cbn. intros Hin.
    repeat (apply elem_of_cons in Hin as [Hin | Hin]; [discriminate Hin |]).
    by apply elem_of_nil in Hin.
Qed.

(** A prediction the banner calls "Standard" sits in the green band, and
    one the banner calls "High" sits in the amber band. *)
Example banner_and_band_disagree :
  risk_label 12000%float = StandardRisk
  ∧ PrimFloat.leb 2000%float 12000%float = true
  ∧ PrimFloat.ltb 12000%float 15000%float = true
  ∧ risk_label 32000%float = HighRisk
  ∧ PrimFloat.leb 15000%float 32000%float = true
  ∧ PrimFloat.ltb 32000%float 35000%float = true.
Proof. repeat split; reflexivity. Qed.

(** ** The form on a fresh page *)

Lemma form_fresh_page :
  form fresh_page = {|
    age := 35; bmi := 30%float; sex := "Male"; children := 0;
    smoker := false; region := "Southeast"
  |}.
Proof. reflexivity. Qed.

Lemma form_fresh_page_valid : valid_input (form fresh_page) = true.
Proof. reflexivity. Qed.

(** C9, as the script has it: on a fresh page the region field holds the
    first entry of the select box's option list; the list is the four
    region names in the order Southeast, Northwest, Southwest, Northeast,
    so the default region is Southeast. *)
Theorem region_default_is_first_option :
  head REGION_OPTIONS = Some (region (form fresh_page))
  ∧ REGION_OPTIONS = ["Southeast"; "Northwest"; "Southwest"; "Northeast"]
  ∧ REGION_OPTIONS ≡ₚ ["Northeast"; "Northwest"; "Southeast"; "Southwest"]
  ∧ region (form fresh_page) = "Southeast".
Proof.
  repeat split; try reflexivity.
  unfold REGION_OPTIONS. solve_Permutation.
Qed.

(** C9, as the specification words it: the default region is not Northeast,
    the first name of the specification's enumeration. *)
Lemma region_default_is_not_northeast :
  region (form fresh_page) = "Southeast"
  ∧ region (form fresh_page) ≠ "Northeast"
  ∧ head ["Northeast"; "Northwest"; "Southeast"; "Southwest"]
    ≠ Some (region (form fresh_page)).
Proof.
  split; [reflexivity |]. split; intros H; discriminate H.
Qed.

(** ** Whole runs *)

(** Before the button is pressed only the placeholder is shown. *)
Lemma main_idle (g : globals) (ui : session) :
  main g ui false = Run [StInfo IDLE_MESSAGE] (Ok tt).
Proof. reflexivity. Qed.

(** Pressing the button on an untouched page, with both sample artifacts
    loaded: scale, predict, then banner, KPI and gauge. *)
Example main_fresh_submit :
  main {| model := Some (constant_model 12000%float);
          scaler := Some identity_scaler |} fresh_page true
  = Run [ScalerTransform [[35%float; 30%float; 0%float; 1%float]];
         ModelPredict [[35%float; 0%float; 30%float; 0%float; 0%float;
                        0%float; 1%float; 0%float; 1%float]];
         banner StandardRisk;
         StMetric "ESTIMATED ANNUAL PREMIUM" 12000%float;
         StPlotlyChart (gauge_figure 12000%float)] (Ok tt).
Proof. reflexivity. Qed.

(** The same press with nothing on the disk. *)
Example main_fresh_submit_no_artifacts :
  startup ∅ = Ok {| model := None; scaler := None |}
  ∧ main {| model := None; scaler := None |} fresh_page true
    = Run FALLBACK_REPORT (Ok tt).
Proof. split; reflexivity. Qed.

(** * Further properties of the script *)

(** ** Every outcome of startup *)

(** The nine combinations of the two files, by what the loader returns. *)
Lemma load_artifacts_cases (fs : disk) :
  (∃ m s, fs !! MODEL_PATH = Some (Loads m) ∧ fs !! SCALER_PATH = Some (Loads s)
          ∧ load_artifacts fs = Some (<["scaler" := s]> (<["model" := m]> ∅)))
  ∨ (∃ m, fs !! MODEL_PATH = Some (Loads m) ∧ fs !! SCALER_PATH = None
          ∧ load_artifacts fs = Some (<["model" := m]> ∅))
  ∨ (∃ s, fs !! MODEL_PATH = None ∧ fs !! SCALER_PATH = Some (Loads s)
          ∧ load_artifacts fs = Some (<["scaler" := s]> ∅))
  ∨ (fs !! MODEL_PATH = None ∧ fs !! SCALER_PATH = None
          ∧ load_artifacts fs = Some ∅)
  ∨ ((∃ e, fs !! MODEL_PATH = Some (LoadRaises e)
           ∨ fs !! SCALER_PATH = Some (LoadRaises e))
          ∧ load_artifacts fs = None).
Proof.
  destruct (fs !! MODEL_PATH) as [[m | e] |] eqn:Hm.
  - destruct (fs !! SCALER_PATH) as [[s | e] |] eqn:Hs.
    + left. exists m, s. eauto using load_artifacts_both.
    + do 4 right. split; [by exists e; right |].
      apply (load_artifacts_raise fs e). by right.
    + right; left. exists m. eauto using load_artifacts_model_only.
  - do 4 right. split; [by exists e; left |].
    apply (load_artifacts_raise fs e). by left.
  - destruct (fs !! SCALER_PATH) as [[s | e] |] eqn:Hs.
    + do 2 right; left. exists s. eauto using load_artifacts_scaler_only.
    + do 4 right. split; [by exists e; right |].
      apply (load_artifacts_raise fs e). by right.
    + do 3 right; left. eauto using load_artifacts_neither.
Qed.

(** X1: the loader returns [None] exactly when one of the two files exists
    and [joblib.load] raises on it; every other disk yields a dict. *)
Theorem load_artifacts_none_iff (fs : disk) :
  load_artifacts fs = None ↔
  (∃ e, fs !! MODEL_PATH = Some (LoadRaises e))
  ∨ (∃ e, fs !! SCALER_PATH = Some (LoadRaises e)).
Proof.
  split.
  - intros Hnone.
    destruct (load_artifacts_cases fs)
      as [(m & s & _ & _ & H) | [(m & _ & _ & H) | [(s & _ & _ & H)
         | [(_ & _ & H) | [(e & [He | He]) _]]]]];
      try (rewrite H in Hnone; discriminate Hnone).
    + left. by exists e.
    + right. by exists e.
  - intros [[e He] | [e He]]; apply (load_artifacts_raise fs e); auto.
Qed.

(** X2: when the loader returns a dict, the dict mirrors the disk: it has
    the key ["model"] (["scaler"]) exactly when that file exists, bound to
    the object the file unpickles to, and it has no other key. *)
Theorem load_artifacts_mirrors_disk (fs : disk) (d : gmap string object) :
  load_artifacts fs = Some d →
  (∀ o, d !! "model" = Some o ↔ fs !! MODEL_PATH = Some (Loads o))
  ∧ (∀ o, d !! "scaler" = Some o ↔ fs !! SCALER_PATH = Some (Loads o))
  ∧ (∀ k, k ≠ "model" → k ≠ "scaler" → d !! k = None).
Proof.
  intros Hd.
  destruct (load_artifacts_cases fs)
    as [(m & s & Hm & Hs & H) | [(m & Hm & Hs & H) | [(s & Hm & Hs & H)
       | [(Hm & Hs & H) | [_ H]]]]];
    rewrite H in Hd; try discriminate Hd;
    injection Hd as <-; rewrite Hm, Hs.
  - split; [| split].
    + intros o. rewrite lookup_insert_ne by distinct_keys.
      rewrite lookup_insert_eq. split; congruence.
    + intros o. rewrite lookup_insert_eq. split; congruence.
    + intros k H1 H2. by rewrite !lookup_insert_ne, lookup_empty.
  - split; [| split].
    + intros o. rewrite lookup_insert_eq. split; congruence.
    + intros o. rewrite lookup_insert_ne by distinct_keys.
      rewrite lookup_empty. split; congruence.
    + intros k H1 H2. by rewrite lookup_insert_ne, lookup_empty.
  - split; [| split].
    + intros o. rewrite lookup_insert_ne by distinct_keys.
      rewrite lookup_empty. split; congruence.
    + intros o. rewrite lookup_insert_eq. split; congruence.
    + intros k H1 H2. by rewrite lookup_insert_ne, lookup_empty.
  - split; [| split].
    + intros o. rewrite lookup_empty. split; congruence.
    + intros o. rewrite lookup_empty. split; congruence.
    + intros k _ _. apply lookup_empty.
Qed.

Lemma load_artifacts_mirrors_disk_witness :
  (∀ o, (<["model" := constant_model 12000%float]> ∅ : gmap string object)
          !! "model" = Some o
        ↔ disk_model_only !! MODEL_PATH = Some (Loads o))
  ∧ (∀ o, (<["model" := constant_model 12000%float]> ∅ : gmap string object)
            !! "scaler" = Some o
          ↔ disk_model_only !! SCALER_PATH = Some (Loads o))
  ∧ (∀ k, k ≠ "model" → k ≠ "scaler" →
          (<["model" := constant_model 12000%float]> ∅ : gmap string object)
            !! k = None).
Proof.
  exact (load_artifacts_mirrors_disk disk_model_only
           (<["model" := constant_model 12000%float]> ∅) eq_refl).
Defined.

(** X3: the import succeeds in exactly two ways.  Either both names are
    [None] (both files missing, or a load raised), or both files unpickle
    and both names are bound to the unpickled objects.  It never ends with
    exactly one of the two names bound. *)
Theorem startup_ok_iff (fs : disk) (g : globals) :
  startup fs = Ok g ↔
  (g = {| model := None; scaler := None |}
   ∧ ((fs !! MODEL_PATH = None ∧ fs !! SCALER_PATH = None)
      ∨ (∃ e, fs !! MODEL_PATH = Some (LoadRaises e)
              ∨ fs !! SCALER_PATH = Some (LoadRaises e))))
  ∨ (∃ m s, g = {| model := Some m; scaler := Some s |}
            ∧ fs !! MODEL_PATH = Some (Loads m)
            ∧ fs !! SCALER_PATH = Some (Loads s)).
Proof.
  split.
  - intros Hg.
    destruct (load_artifacts_cases fs)
      as [(m & s & Hm & Hs & _) | [(m & Hm & Hs & _) | [(s & Hm & Hs & _)
         | [(Hm & Hs & _) | [(e & He) _]]]]].
    + rewrite (startup_both fs m s Hm Hs) in Hg. injection Hg as <-.
      right. by exists m, s.
    + rewrite (startup_model_only fs m Hm Hs) in Hg. discriminate Hg.
    + rewrite (startup_scaler_only fs s Hm Hs) in Hg. discriminate Hg.
    + rewrite (startup_neither fs Hm Hs) in Hg. injection Hg as <-.
      left. split; [done | by left].
    + rewrite (startup_raise fs e He) in Hg. injection Hg as <-.
      left. split; [done | right; by exists e].
  - intros [[-> [[Hm Hs] | [e He]]] | (m & s & -> & Hm & Hs)].
    + by apply startup_neither.
    + by apply (startup_raise fs e).
    + by apply startup_both.
Qed.

(** X4: the import raises in exactly two ways, both a [KeyError] for the
    key of the missing file while the other file unpickled; in particular
    no exception of [joblib.load] ever leaves startup. *)
Theorem startup_raise_iff (fs : disk) (e : exn) :
  startup fs = Raise e ↔
  (e = KeyError "scaler"
   ∧ (∃ m, fs !! MODEL_PATH = Some (Loads m)) ∧ fs !! SCALER_PATH = None)
  ∨ (e = KeyError "model"
     ∧ fs !! MODEL_PATH = None ∧ (∃ s, fs !! SCALER_PATH = Some (Loads s))).
Proof.
  split.
  - intros He.
    destruct (load_artifacts_cases fs)
      as [(m & s & Hm & Hs & _) | [(m & Hm & Hs & _) | [(s & Hm & Hs & _)
         | [(Hm & Hs & _) | [(e' & He') _]]]]].
    + rewrite (startup_both fs m s Hm Hs) in He. discriminate He.
    + rewrite (startup_model_only fs m Hm Hs) in He. injection He as <-.
      left. eauto.
    + rewrite (startup_scaler_only fs s Hm Hs) in He. injection He as <-.
      right. eauto.
    + rewrite (startup_neither fs Hm Hs) in He. discriminate He.
    + rewrite (startup_raise fs e' He') in He. discriminate He.
  - intros [(-> & [m Hm] & Hs) | (-> & Hm & [s Hs])].
    + by apply (startup_model_only fs m).
    + by apply (startup_scaler_only fs s).
Qed.

(** ** Every outcome of the encoder *)

(** At most one region bit is set, whatever the string. *)
Lemma region_bits_at_most_one (region : string) :
  0 ≤ r_nw region + r_se region + r_sw region ≤ 1.
Proof.
  unfold r_nw, r_se, r_sw.
  destruct (String.eqb_spec region "Northwest") as [-> | _]; [cbn; lia |].
  destruct (String.eqb_spec region "Southeast") as [-> | _]; [cbn; lia |].
  destruct (String.eqb region "Southwest"); lia.
Qed.


(** The encoder either builds its row from a first row of at least four
    scaled numbers, or stops right after the scaler call. *)
Lemma encode_cases (s : object) (x : RawInput) :
  (∃ a b c d rest more,
      transform s (input_raw x) = Ok ((a :: b :: c :: d :: rest) :: more)
      ∧ encode (Some s) x =
        Run [ScalerTransform (input_raw x)]
            (Ok [[a; float_of_Z (sex_val (sex x)); b; c;
                  float_of_Z (smoker_val (smoker x));
                  float_of_Z (r_nw (region x)); float_of_Z (r_se (region x));
                  float_of_Z (r_sw (region x)); d]]))
  ∨ (∃ e,
      encode (Some s) x = Run [ScalerTransform (input_raw x)] (Raise e)
      ∧ (transform s (input_raw x) = Raise e
         ∨ (e = IndexError
            ∧ ∃ X, transform s (input_raw x) = Ok X
                   ∧ (X = [] ∨ ∃ row more, X = row :: more
                                           ∧ (length row < 4)%nat)))).
Proof.
  destruct (transform s (input_raw x)) as [X | e] eqn:H.
  - destruct X as [| row more].
    + right. exists IndexError. split.
      * unfold encode, call_transform, mbind, M_bind. cbn. by rewrite H.
      * right. split; [done |]. exists []. by split; [| left].
    + destruct (decide (length row < 4)%nat) as [Hlt | Hge].
      * right. exists IndexError. split.
        -- by apply (encode_short_row s x row more).
        -- right. split; [done |]. exists (row :: more).
           split; [done |]. right. by exists row, more.
      * destruct row as [| a [| b [| c [| d rest]]]]; cbn in Hge; try lia.
        left. exists a, b, c, d, rest, more. split; [done |].
        by apply (encode_run s x a b c d rest more).
  - right. exists e. split; [by apply encode_scaler_raises | by left].
Qed.

(** X5: the encoder fails in exactly two ways: with the scaler's own
    exception, or with an [IndexError] when the scaler returned no row or a
    first row of fewer than four numbers. *)
Theorem encode_raises_iff (s : object) (x : RawInput) (e : exn) :
  outcome (encode (Some s) x) = Raise e ↔
  transform s (input_raw x) = Raise e
  ∨ (e = IndexError
     ∧ ∃ X, transform s (input_raw x) = Ok X
            ∧ (X = [] ∨ ∃ row more, X = row :: more ∧ (length row < 4)%nat)).
Proof.
  split.
  - intros He.
    destruct (encode_cases s x)
      as [(a & b & c & d & rest & more & _ & Hrun) | (e' & Hrun & Hwhy)];
      rewrite Hrun in He; cbn in He; [discriminate He |].
    by injection He as <-.
  - intros Hwhy.
    destruct (encode_cases s x)
      as [(a & b & c & d & rest & more & Ht & _) | (e' & Hrun & Hwhy')].
    + destruct Hwhy as [Hr | (_ & X & HX & [-> | (row & more' & -> & Hlen)])];
        rewrite Ht in *; try discriminate.
      injection HX as <- <-. cbn in Hlen. lia.
    + rewrite Hrun. cbn. f_equal.
      destruct Hwhy as [Hr | (-> & X & HX & _)],
               Hwhy' as [Hr' | (-> & X' & HX' & _)];
        congruence.
Qed.



(** X7: the three region bits tell the four offered regions apart, never
    have two bits set, and send every string that is none of Northwest,
    Southeast, Southwest to the all-zero code of Northeast. *)
Theorem region_bits_separate_options :
  (∀ r1 r2 : string,
      r1 ∈ REGION_OPTIONS → r2 ∈ REGION_OPTIONS →
      (r_nw r1, r_se r1, r_sw r1) = (r_nw r2, r_se r2, r_sw r2) → r1 = r2)
  ∧ (∀ r : string, 0 ≤ r_nw r + r_se r + r_sw r ≤ 1)
  ∧ (∀ r : string,
      r ∉ ["Northwest"; "Southeast"; "Southwest"] ↔
      (r_nw r, r_se r, r_sw r) = (0, 0, 0))
  ∧ (r_nw "Northeast", r_se "Northeast", r_sw "Northeast") = (0, 0, 0).
Proof.
  split; [| split; [apply region_bits_at_most_one | split; [| done]]].
  - intros r1 r2 H1 H2.
    unfold REGION_OPTIONS in H1, H2.
    repeat (apply elem_of_cons in H1 as [-> | H1]);
      try (by apply elem_of_nil in H1);
      repeat (apply elem_of_cons in H2 as [-> | H2]);
      try (by apply elem_of_nil in H2);
      cbn; intros Heq; try reflexivity; discriminate Heq.
  - intros r. unfold r_nw, r_se, r_sw. split.
    + intros Hnot.
      destruct (String.eqb_spec r "Northwest") as [-> | _]; [set_solver |].
      destruct (String.eqb_spec r "Southeast") as [-> | _]; [set_solver |].
      destruct (String.eqb_spec r "Southwest") as [-> | _]; [set_solver |].
      done.
    + intros Heq Hin.
      repeat (apply elem_of_cons in Hin as [-> | Hin]);
        try (by apply elem_of_nil in Hin); discriminate Heq.
Qed.

(** ** Every outcome of a submission *)

(** An open guard means two truthy objects: [None] is falsy. *)
Lemma guard_open (g : globals) :
  truth (model g) && truth (scaler g) = true →
  ∃ m s, model g = Some m ∧ scaler g = Some s
         ∧ truthy m = true ∧ truthy s = true.
Proof.
  destruct g as [[m |] [s |]]; cbn; intros H;
    try discriminate H; try (rewrite andb_false_r in H; discriminate H).
  apply andb_prop in H as [Hm Hs]. by exists m, s.
Qed.

(** The pipeline after a failed encoder. *)
Lemma inference_encoder_raises (m s : object) (x : RawInput) (e : exn) :
  truthy m = true → truthy s = true →
  encode (Some s) x = Run [ScalerTransform (input_raw x)] (Raise e) →
  inference {| model := Some m; scaler := Some s |} x
  = Run [ScalerTransform (input_raw x)] (Raise e).
Proof.
  intros Hm Hs He. unfold inference. cbn [model scaler truth].
  rewrite Hm, Hs. cbn [andb]. rewrite He. reflexivity.
Qed.

(** X8: the model is only ever asked after one successful scaler call in
    the same run, and only about a single row of nine numbers, the one the
    encoder built; both artifacts are then truthy. *)
Theorem predict_only_after_transform (g : globals) (x : RawInput) (X : matrix) :
  ModelPredict X ∈ trace (inference g x) →
  trace (inference g x) = [ScalerTransform (input_raw x); ModelPredict X]
  ∧ truth (model g) = true ∧ truth (scaler g) = true
  ∧ outcome (encode (scaler g) x) = Ok X
  ∧ ∃ row, X = [row] ∧ length row = 9%nat.
Proof.
  intros Hin.
  destruct (truth (model g) && truth (scaler g)) eqn:Hg.
  - destruct (guard_open g Hg) as (m & s & Hgm & Hgs & Hm & Hs).
    destruct g as [gm gs]. cbn in Hgm, Hgs. subst gm gs. cbn [model scaler truth].
    destruct (encode_cases s x)
      as [(a & b & c & d & rest & more & Ht & Hrun) | (e & Hrun & _)].
    + pose proof (inference_available m s x a b c d rest more Hm Hs Ht) as Hinf.
      cbn zeta in Hinf. rewrite Hinf in Hin |- *. cbn [trace] in Hin |- *.
      apply elem_of_cons in Hin as [Hin | Hin]; [discriminate Hin |].
      apply elem_of_cons in Hin as [Hin | Hin];
        [| by apply elem_of_nil in Hin].
      injection Hin as ->.
      split; [done |]. split; [done |]. split; [done |].
      split; [by rewrite Hrun |]. by eexists.
    + rewrite (inference_encoder_raises m s x e Hm Hs Hrun) in Hin.
      cbn in Hin. apply elem_of_cons in Hin as [Hin | Hin];
        [discriminate Hin | by apply elem_of_nil in Hin].
  - rewrite (inference_fallback g x Hg) in Hin. cbn in Hin.
    by apply elem_of_nil in Hin.
Qed.

Lemma predict_only_after_transform_witness :
  let g := {| model := Some (constant_model 12000%float);
              scaler := Some identity_scaler |} in
  let X := [[35%float; 0%float; 30%float; 0%float; 0%float;
             0%float; 1%float; 0%float; 1%float]] in
  trace (inference g scenario1)
  = [ScalerTransform (input_raw scenario1); ModelPredict X]
  ∧ truth (model g) = true ∧ truth (scaler g) = true
  ∧ outcome (encode (scaler g) scenario1) = Ok X
  ∧ ∃ row, X = [row] ∧ length row = 9%nat.
Proof.
  refine (predict_only_after_transform
            {| model := Some (constant_model 12000%float);
               scaler := Some identity_scaler |} scenario1
            [[35%float; 0%float; 30%float; 0%float; 0%float;
              0%float; 1%float; 0%float; 1%float]] _).
  apply list_elem_of_further, list_elem_of_here.
Defined.

(** The inference step logs artifact calls only. *)
Lemma inference_trace_calls (g : globals) (x : RawInput) (ev : event) :
  ev ∈ trace (inference g x) →
  ∃ X, ev = ScalerTransform X ∨ ev = ModelPredict X.
Proof.
  intros Hin.
  destruct (truth (model g) && truth (scaler g)) eqn:Hg.
  - destruct (guard_open g Hg) as (m & s & Hgm & Hgs & Hm & Hs).
    destruct g as [gm gs]. cbn in Hgm, Hgs. subst gm gs.
    destruct (encode_cases s x)
      as [(a & b & c & d & rest & more & Ht & Hrun) | (e & Hrun & _)].
    + pose proof (inference_available m s x a b c d rest more Hm Hs Ht) as Hinf.
      cbn zeta in Hinf. rewrite Hinf in Hin. cbn [trace] in Hin.
      apply elem_of_cons in Hin as [-> | Hin]; [eauto |].
      apply elem_of_cons in Hin as [-> | Hin]; [eauto |].
      by apply elem_of_nil in Hin.
    + rewrite (inference_encoder_raises m s x e Hm Hs Hrun) in Hin.
      cbn in Hin. apply elem_of_cons in Hin as [-> | Hin]; [eauto |].
      by apply elem_of_nil in Hin.
  - rewrite (inference_fallback g x Hg) in Hin. cbn in Hin.
    by apply elem_of_nil in Hin.
Qed.

(** X9: a submitted run renders all or nothing.  If the inference step
    yields a number, the report is, after the artifact calls, exactly one
    banner, one KPI and one gauge, all three for that same number; if it
    raises, the run ends with that exception and not a single Streamlit
    element of the report is rendered. *)
Theorem report_all_or_nothing (g : globals) (x : RawInput) :
  ((∃ p, outcome (inference g x) = Ok p
         ∧ report g true x =
           Run (trace (inference g x)
                ++ [banner (risk_label p);
                    StMetric "ESTIMATED ANNUAL PREMIUM" p;
                    StPlotlyChart (gauge_figure p)]) (Ok tt))
   ∨ (∃ e, outcome (inference g x) = Raise e
           ∧ report g true x = Run (trace (inference g x)) (Raise e)))
  ∧ (∀ ev, ev ∈ trace (inference g x) →
           ∃ X, ev = ScalerTransform X ∨ ev = ModelPredict X).
Proof.
  split; [| apply inference_trace_calls].
  unfold report, mbind, M_bind.
  destruct (outcome (inference g x)) as [p | e].
  - left. exists p. split; [done |]. by rewrite present_run.
  - right. by exists e.
Qed.

(** X10: with both artifacts truthy, a scaler that returns at least four
    numbers and a model that returns at least one, the run is: one scaler
    call, one model call on the encoded row, then banner, KPI and gauge
    for the model's first answer; further answers are ignored. *)
Theorem report_prediction (m s : object) (x : RawInput)
    (a b c d : float) (rest : list float) (more : matrix)
    (y : float) (ys : list float) :
  truthy m = true → truthy s = true →
  transform s (input_raw x) = Ok ((a :: b :: c :: d :: rest) :: more) →
  let v := [[a; float_of_Z (sex_val (sex x)); b; c;
             float_of_Z (smoker_val (smoker x));
             float_of_Z (r_nw (region x)); float_of_Z (r_se (region x));
             float_of_Z (r_sw (region x)); d]] in
  predict m v = Ok (y :: ys) →
  report {| model := Some m; scaler := Some s |} true x =
  Run [ScalerTransform (input_raw x); ModelPredict v;
       banner (risk_label y);
       StMetric "ESTIMATED ANNUAL PREMIUM" y;
       StPlotlyChart (gauge_figure y)] (Ok tt).
Proof.
  intros Hm Hs Ht v Hp. unfold report.
  pose proof (inference_available m s x a b c d rest more Hm Hs Ht) as Hinf.
  cbn zeta in Hinf. fold v in Hinf. rewrite Hinf, Hp. reflexivity.
Qed.

Lemma report_prediction_witness :
  report {| model := Some (constant_model 12000%float);
            scaler := Some identity_scaler |} true scenario1 =
  Run [ScalerTransform (input_raw scenario1);
       ModelPredict [[35%float; 0%float; 30%float; 0%float; 0%float;
                      0%float; 1%float; 0%float; 1%float]];
       banner (risk_label 12000%float);
       StMetric "ESTIMATED ANNUAL PREMIUM" 12000%float;
       StPlotlyChart (gauge_figure 12000%float)] (Ok tt).
Proof.
  exact (report_prediction (constant_model 12000%float) identity_scaler
           scenario1 35%float 30%float 0%float 1%float [] []
           12000%float [] eq_refl eq_refl eq_refl eq_refl).
Defined.

(** X11: when the scaler raises, the run ends with the scaler's exception
    right after that call: the model is never asked and nothing is
    rendered. *)
Theorem scaler_failure_stops_run (m s : object) (x : RawInput) (e : exn) :
  truthy m = true → truthy s = true →
  transform s (input_raw x) = Raise e →
  report {| model := Some m; scaler := Some s |} true x
  = Run [ScalerTransform (input_raw x)] (Raise e).
Proof.
  intros Hm Hs Ht. unfold report.
  rewrite (inference_encoder_raises m s x e Hm Hs
             (encode_scaler_raises s x e Ht)).
  reflexivity.
Qed.

Lemma scaler_failure_stops_run_witness :
  report {| model := Some (constant_model 12000%float);
            scaler := Some mismatched_scaler |} true scenario1
  = Run [ScalerTransform (input_raw scenario1)]
        (Raise (OtherException "ValueError")).
Proof.
  exact (scaler_failure_stops_run (constant_model 12000%float)
           mismatched_scaler scenario1 (OtherException "ValueError")
           eq_refl eq_refl eq_refl).
Defined.

(** X12: when the model raises, or answers with an empty array (then the
    subscript raises [IndexError]), the run ends with that exception after
    the two artifact calls and nothing is rendered. *)
Theorem model_failure_stops_run (m s : object) (x : RawInput)
    (a b c d : float) (rest : list float) (more : matrix) (e : exn) :
  truthy m = true → truthy s = true →
  transform s (input_raw x) = Ok ((a :: b :: c :: d :: rest) :: more) →
  let v := [[a; float_of_Z (sex_val (sex x)); b; c;
             float_of_Z (smoker_val (smoker x));
             float_of_Z (r_nw (region x)); float_of_Z (r_se (region x));
             float_of_Z (r_sw (region x)); d]] in
  predict m v = Raise e ∨ (predict m v = Ok [] ∧ e = IndexError) →
  report {| model := Some m; scaler := Some s |} true x =
  Run [ScalerTransform (input_raw x); ModelPredict v] (Raise e).
Proof.
  intros Hm Hs Ht v Hp. unfold report.
  pose proof (inference_available m s x a b c d rest more Hm Hs Ht) as Hinf.
  cbn zeta in Hinf. fold v in Hinf. rewrite Hinf.
  destruct Hp as [Hp | [Hp ->]]; rewrite Hp; reflexivity.
Qed.

Lemma model_failure_stops_run_witness :
  report {| model := Some silent_model; scaler := Some identity_scaler |}
         true scenario1 =
  Run [ScalerTransform (input_raw scenario1);
       ModelPredict [[35%float; 0%float; 30%float; 0%float; 0%float;
                      0%float; 1%float; 0%float; 1%float]]]
      (Raise IndexError).
Proof.
  exact (model_failure_stops_run silent_model identity_scaler scenario1
           35%float 30%float 0%float 1%float [] [] IndexError
           eq_refl eq_refl eq_refl (or_intror (conj eq_refl eq_refl))).
Defined.

(** ** The banner and the order of binary64 *)

(** Comparisons of exponents and mantissas, case by case. *)
Ltac order_cases :=
  repeat match goal with
    | |- context [Z.compare ?a ?b] => destruct (Z.compare_spec a b)
    | |- context [PosDef.Pos.compare_cont Eq ?a ?b] =>
        change (PosDef.Pos.compare_cont Eq a b) with (Pos.compare a b);
        destruct (Pos.compare_spec a b)
    end;
  cbn; intros; try discriminate; try reflexivity; try lia.

Section SpecOrder.

(** [c < x] and [x <= y] give [c < y]. *)
Lemma SFltb_leb_trans (c x y : spec_float) :
  SFltb c x = true → SFleb x y = true → SFltb c y = true.
Proof.
  unfold SFltb, SFleb, SFcompare.
  destruct c as [sc | sc | | sc mc ec], x as [sx | sx | | sx mx ex],
    y as [sy | sy | | sy my ey];
    try destruct sc; try destruct sx; try destruct sy;
    order_cases.
Qed.

(** [x <= y] and [y < c] give [x < c]. *)
Lemma SFleb_ltb_trans (c x y : spec_float) :
  SFltb y c = true → SFleb x y = true → SFltb x c = true.
Proof.
  unfold SFltb, SFleb, SFcompare.
  destruct c as [sc | sc | | sc mc ec], x as [sx | sx | | sx mx ex],
    y as [sy | sy | | sy my ey];
    try destruct sc; try destruct sx; try destruct sy;
    order_cases.
Qed.

(** Between two values that are not NaN, [x <= y] is "not [y < x]". *)
Lemma SFleb_iff_not_ltb (x y : spec_float) :
  SFleb x y = true ↔ SFltb y x = false ∧ x ≠ S754_nan ∧ y ≠ S754_nan.
Proof.
  unfold SFltb, SFleb, SFcompare.
  destruct x as [sx | sx | | sx mx ex], y as [sy | sy | | sy my ey];
    try destruct sx; try destruct sy;
    order_cases;
    (split; [intros H'; repeat split; try discriminate; try reflexivity; try lia
            | intros (H' & Hx & Hy); try discriminate; try reflexivity;
              try (by destruct Hx); try (by destruct Hy); try lia]).
Qed.

(** A value is NaN exactly when it differs from itself. *)
Lemma is_nan_spec (p : float) :
  PrimFloat.is_nan p = true ↔ Prim2SF p = S754_nan.
Proof.
  unfold PrimFloat.is_nan. rewrite FloatAxioms.eqb_spec. unfold SFeqb, SFcompare.
  destruct (Prim2SF p) as [s | s | | s m e]; try destruct s;
    rewrite ?Z.compare_refl;
    try change (PosDef.Pos.compare_cont Eq m m) with (Pos.compare m m);
    rewrite ?Pos.compare_refl; cbn; split; intros H;
    try discriminate H; reflexivity.
Qed.

End SpecOrder.

(** X13: the "Standard Risk" banner is shown exactly for the predictions
    of the closed interval [10000, 30000] (both ends included) and for
    NaN, which fails both tests. *)
Theorem standard_band_is_closed (p : float) :
  risk_label p = StandardRisk ↔
  (PrimFloat.leb 10000%float p = true ∧ PrimFloat.leb p 30000%float = true)
  ∨ PrimFloat.is_nan p = true.
Proof.
  rewrite risk_label_standard, !FloatAxioms.leb_spec, !FloatAxioms.ltb_spec, is_nan_spec.
  rewrite !SFleb_iff_not_ltb.
  destruct (Prim2SF p) as [s | s | | s m e] eqn:Hp.
  - split.
    + intros [H1 H2]. left. repeat split; done.
    + intros [[(H1 & _ & _) (H2 & _ & _)] | H]; [done | discriminate H].
  - split.
    + intros [H1 H2]. left. repeat split; done.
    + intros [[(H1 & _ & _) (H2 & _ & _)] | H]; [done | discriminate H].
  - split; [intros _; by right | intros _; split; reflexivity].
  - split.
    + intros [H1 H2]. left. repeat split; done.
    + intros [[(H1 & _ & _) (H2 & _ & _)] | H]; [done | discriminate H].
Qed.

(** X14: the banner never goes down when the prediction goes up: if
    [p <= q], then "High" for [p] gives "High" for [q], and "Low" for [q]
    gives "Low" for [p]. *)
Theorem risk_label_monotone (p q : float) :
  PrimFloat.leb p q = true →
  (risk_label p = HighRisk → risk_label q = HighRisk)
  ∧ (risk_label q = LowRisk → risk_label p = LowRisk).
Proof.
  rewrite FloatAxioms.leb_spec. intros Hle. split.
  - intros Hp. apply risk_label_high in Hp. apply risk_label_high.
    rewrite FloatAxioms.ltb_spec in Hp |- *.
    by apply (SFltb_leb_trans _ (Prim2SF p)).
  - intros Hq. apply risk_label_low in Hq. apply risk_label_low.
    rewrite FloatAxioms.ltb_spec in Hq |- *.
    by apply (SFleb_ltb_trans _ _ (Prim2SF q)).
Qed.

Lemma risk_label_monotone_witness :
  risk_label 40000%float = HighRisk ∧ risk_label 5000%float = LowRisk.
Proof.
  split.
  - exact (proj1 (risk_label_monotone 31000%float 40000%float eq_refl) eq_refl).
  - exact (proj2 (risk_label_monotone 5000%float 9999%float eq_refl) eq_refl).
Defined.

(** ** Reruns *)

(** The first run of a process is startup followed by [main]. *)
Lemma script_run_first (fs : disk) (ui : session) (submitted : bool) :
  script_run None fs ui submitted =
  (match startup fs with
   | Ok g => main g ui submitted
   | Raise e => Run [] (Raise e)
   end, Some (load_artifacts fs)).
Proof. reflexivity. Qed.


(** X16: a load that raised during the first run is never retried: even
    when both files unpickle at the time of a later submission, that
    submission is served by the fallback report. *)
Theorem failed_load_is_permanent (fs1 fs2 : disk) (e : exn)
    (ui1 ui2 : session) (b1 : bool) :
  fs1 !! MODEL_PATH = Some (LoadRaises e) ∨ fs1 !! SCALER_PATH = Some (LoadRaises e) →
  (script_run (script_run None fs1 ui1 b1).2 fs2 ui2 true).1
  = Run FALLBACK_REPORT (Ok tt).
Proof.
  intros H. unfold script_run, load_artifacts_cached.
  rewrite (load_artifacts_raise fs1 e H). reflexivity.
Qed.

Lemma failed_load_is_permanent_witness :
  (script_run (script_run None disk_scaler_corrupt fresh_page false).2
              disk_both fresh_page true).1
  = Run FALLBACK_REPORT (Ok tt)
  ∧ startup disk_both
    = Ok {| model := Some (constant_model 12000%float);
            scaler := Some identity_scaler |}.
Proof.
  split.
  - exact (failed_load_is_permanent disk_scaler_corrupt disk_both
             (OtherException "UnpicklingError") fresh_page fresh_page false
             (or_intror eq_refl)).
  - by apply startup_both.
Defined.
